(** * Red days: a shallow embedding of [röda_dagar.py]

    The script downloads one table of Swedish public holidays per requested
    year, optionally drops the rows that fall on a weekend, turns each date
    into an ICS start date and end date, and writes an ICS file.

    Python values are modelled as follows.
    - [str] is [string]: the UTF-8 bytes of the text, so that equality of
      two [str] values is equality of the byte strings.
    - [int] is [Z].
    - A pandas [datetime64[ns]] value is the [Z] of its int64 payload:
      nanoseconds since 1970-01-01, with the smallest int64 standing for
      the missing value NaT.
    - An exception is a value of [exn]; a method that can raise returns
      [result].
    - pandas is the 1.x line, in which [DataFrame.append] exists. Two of
      its functions are only partly defined here. [pd.to_datetime] with the
      format ['%Y-%m-%d'] reads far more than that format; what it makes of
      an empty text and of a date written YYYY-MM-DD is written out, and
      what it makes of any other text is a parameter, [other_text]. In the
      same way [astype(str)] is written out for a column of dates and for
      NaT, and how it prints a column in which some value has a time of
      day is a parameter, [print_time]. Every statement holds for all
      values of the two parameters.
    - The network, the clock and the file system are a state that the
      methods thread: the page a URL serves is a function of the URL, the
      requests and pauses are recorded in a trace, and the output file is an
      optional string. *)

From Stdlib Require Import ZArith List String Ascii Bool Lia.
From Stdlib Require Import DecimalString.
Import ListNotations.

Local Open Scope string_scope.
Local Open Scope Z_scope.

(** ** Exceptions and results *)

Inductive exn : Type :=
| KeyError (key : string)        (* df[key] on a frame without that column *)
| IndexError                     (* [0] on an empty list, or a missing format argument *)
| ValueError (data : string)     (* time data does not match the format *)
| OutOfBoundsDatetime (data : string)
| OverflowError                  (* int64 overflow in Datum + Timedelta *)
| FetchError (url : string)      (* read_html failed: network, HTTP, no table *)
| OSError (path : string).       (* open failed *)

Inductive result (A : Type) : Type :=
| Ok (a : A)
| Raise (e : exn).

Arguments Ok {A} a.
Arguments Raise {A} e.

Definition rbind {A B : Type} (r : result A) (k : A -> result B) : result B :=
  match r with
  | Ok a => k a
  | Raise e => Raise e
  end.

Fixpoint rmap {A B : Type} (f : A -> result B) (l : list A) : result (list B) :=
  match l with
  | [] => Ok []
  | a :: l' =>
      rbind (f a) (fun b => rbind (rmap f l') (fun bs => Ok (b :: bs)))
  end.

(** ** Characters and decimal digits *)

Definition LF : string := String (ascii_of_nat 10) "".
Definition hyphen : ascii := "-"%char.

Definition digit_of (c : ascii) : option Z :=
  let n := Z.of_N (N_of_ascii c) in
  if (48 <=? n) && (n <=? 57) then Some (n - 48) else None.

Definition ascii_of_digit (d : Z) : ascii := ascii_of_N (Z.to_N (48 + d)).

(** [str(year)] for a Python [int]. *)
Definition str_int (n : Z) : string := NilZero.string_of_int (Z.to_int n).

(** A non-negative number printed in [w] digits, zero padded: the [%04d]
    and [%02d] of the ISO date text. *)
Fixpoint pad (w : nat) (n : Z) : string :=
  match w with
  | O => ""
  | S w' => pad w' (n / 10) ++ String (ascii_of_digit (n mod 10)) ""
  end.

(** ** The proleptic Gregorian calendar *)

Record date : Type := mkdate { year : Z; month : Z; day : Z }.

Definition is_leap (y : Z) : bool :=
  ((y mod 4 =? 0) && negb (y mod 100 =? 0)) || (y mod 400 =? 0).

Definition days_in_month (y m : Z) : Z :=
  if m =? 2 then (if is_leap y then 29 else 28)
  else if (m =? 4) || (m =? 6) || (m =? 9) || (m =? 11) then 30
  else 31.

Definition valid_date (d : date) : bool :=
  (1 <=? month d) && (month d <=? 12) &&
  (1 <=? day d) && (day d <=? days_in_month (year d) (month d)).


(** Days from 1970-01-01 to a civil date and back, on the 400-year cycle
    of the Gregorian calendar with the year starting in March. *)
Definition days_from_civil (d : date) : Z :=
  let y := if month d <=? 2 then year d - 1 else year d in
  let era := y / 400 in
  let yoe := y - era * 400 in
  let mp := if month d <=? 2 then month d + 9 else month d - 3 in
  let doy := (153 * mp + 2) / 5 + day d - 1 in
  let doe := yoe * 365 + yoe / 4 - yoe / 100 + doy in
  era * 146097 + doe - 719468.

Definition civil_from_days (n : Z) : date :=
  let z := n + 719468 in
  let era := z / 146097 in
  let doe := z - era * 146097 in
  let yoe := (doe - doe / 1460 + doe / 36524 - doe / 146096) / 365 in
  let y := yoe + era * 400 in
  let doy := doe - (365 * yoe + yoe / 4 - yoe / 100) in
  let mp := (5 * doy + 2) / 153 in
  let d := doy - (153 * mp + 2) / 5 + 1 in
  let m := if mp <? 10 then mp + 3 else mp - 9 in
  mkdate (if m <=? 2 then y + 1 else y) m d.

(** ** pandas timestamps

    A [datetime64[ns]] value is an int64 count of nanoseconds since the
    epoch; the smallest int64 is reserved for NaT. *)

Definition NS_PER_DAY : Z := 86400000000000.
Definition INT64_MAX : Z := 9223372036854775807.
Definition INT64_MIN : Z := - 9223372036854775808.

Definition date_ltb (a b : date) : bool :=
  (year a <? year b) ||
  ((year a =? year b) &&
   ((month a <? month b) || ((month a =? month b) && (day a <? day b)))).

(** [Timestamp.min] is 1677-09-21 00:12:43.145224193 and [Timestamp.max]
    is 2262-04-11 23:47:16.854775807; a date stands for its midnight, so it
    is in bounds when it is after the first and not after the second. *)
Definition min_date : date := mkdate 1677 9 21.
Definition max_date : date := mkdate 2262 4 11.

Definition in_bounds (d : date) : bool :=
  date_ltb min_date d && negb (date_ltb max_date d).

(** The text of a date as [astype(str)] prints it, [YYYY-MM-DD]. *)
Definition isoformat (d : date) : string :=
  pad 4 (year d) ++ String hyphen (pad 2 (month d) ++ String hyphen (pad 2 (day d))).

(** [.replace('-', '', regex=True)]: every hyphen of the text is deleted. *)
Fixpoint replace_hyphen (s : string) : string :=
  match s with
  | EmptyString => EmptyString
  | String c s' =>
      if Ascii.eqb c hyphen then replace_hyphen s' else String c (replace_hyphen s')
  end.


(** [w] decimal digits at the head of a text, as a number, and the rest. *)
Fixpoint read_digits (w : nat) (acc : Z) (s : string) : option (Z * string) :=
  match w with
  | O => Some (acc, s)
  | S w' =>
      match s with
      | String c s' =>
          match digit_of c with
          | Some d => read_digits w' (10 * acc + d) s'
          | None => None
          end
      | EmptyString => None
      end
  end.


(** A text that is a date written [YYYY-MM-DD]: four digits, a hyphen, two
    digits, a hyphen, two digits and nothing else, naming a day that
    exists. *)
Definition plain_date (s : string) : option date :=
  match read_digits 4 0 s with
  | Some (y, String c1 s1) =>
      match read_digits 2 0 s1 with
      | Some (m, String c2 s2) =>
          match read_digits 2 0 s2 with
          | Some (d, EmptyString) =>
              if Ascii.eqb c1 hyphen && Ascii.eqb c2 hyphen && valid_date (mkdate y m d)
              then Some (mkdate y m d) else None
          | _ => None
          end
      | _ => None
      end
  | _ => None
  end.

Section Pandas.

(** What [pd.to_datetime(..., format='%Y-%m-%d')] makes of a text that is
    neither empty nor a date written YYYY-MM-DD inside the timestamp
    range: a timestamp, NaT or an exception. *)
Variable other_text : string -> result Z.

(** How [astype(str)] prints a value of a column in which some value has a
    time of day: the column, the value, the text. *)
Variable print_time : list Z -> Z -> string.

(** NaT is the smallest int64. *)
Definition NaT : Z := INT64_MIN.

(** [pd.to_datetime(value, format='%Y-%m-%d')] for one text cell: an empty
    text is a missing value, a date written YYYY-MM-DD that a timestamp can
    hold is the midnight of that date. *)
Definition to_datetime (s : string) : result Z :=
  match s with
  | EmptyString => Ok NaT
  | String _ _ =>
      match plain_date s with
      | Some d =>
          if in_bounds d then Ok (days_from_civil d * NS_PER_DAY) else other_text s
      | None => other_text s
      end
  end.

(** [value + pd.Timedelta('1d')]: int64 addition, checked; NaT stays NaT. *)
Definition Timedelta_1d : Z := 1 * NS_PER_DAY.

Definition checked_add (t inc : Z) : result Z :=
  let r := t + inc in
  if (INT64_MIN <? r) && (r <=? INT64_MAX) then Ok r else Raise OverflowError.

Definition add_day (t : Z) : result Z :=
  if t =? NaT then Ok NaT else checked_add t Timedelta_1d.

(** Whether a column holds dates only: every value that is not NaT is a
    midnight. *)
Definition dates_only (col : list Z) : bool :=
  forallb (fun t => (t =? NaT) || (t mod NS_PER_DAY =? 0)) col.

(** [astype(str)] for one value [t] of the column [col]: NaT prints as
    ["NaT"]; in a column of dates a value prints as its date alone; in any
    other column the format is chosen for the column as a whole. *)
Definition astype_str (col : list Z) (t : Z) : string :=
  if t =? NaT then "NaT"
  else if dates_only col then isoformat (civil_from_days (t / NS_PER_DAY))
  else print_time col t.

(** ** Tables and data frames

    The first table of a year's page has the columns Veckodag, Datum and
    Namn, and its cells are texts. A data frame is a list of column labels
    and a list of rows: [pd.DataFrame()] has neither, and appending a table
    adds the table's labels that the frame does not have yet. *)

Record HolidayRecord : Type :=
  mkrecord { Veckodag : string; Datum : string; Namn : string }.

Definition Table : Type := list HolidayRecord.

Definition table_columns : list string := ["Veckodag"; "Datum"; "Namn"].

Record DataFrame : Type :=
  mkframe { columns : list string; rows : list HolidayRecord }.

Definition has_label (key : string) (labels : list string) : bool :=
  existsb (String.eqb key) labels.

(** [pd.DataFrame()] *)
Definition DataFrame_new : DataFrame := mkframe [] [].

(** [df.append(table)] *)
Definition append (df : DataFrame) (table : Table) : DataFrame :=
  mkframe
    (columns df ++ filter (fun c => negb (has_label c (columns df))) table_columns)%list
    (rows df ++ table)%list.

(** [df[key]] on a frame with the given labels: KeyError when [key] is not
    one of them; otherwise the column is read off the rows. *)
Definition getitem (labels : list string) (key : string) : result unit :=
  if has_label key labels then Ok tt else Raise (KeyError key).

(** [series.isin(values)], for one cell. *)
Definition isin (values : list string) (cell : string) : bool :=
  existsb (String.eqb cell) values.

(** [tables[0]] *)
Definition first_table (tables : list Table) : result Table :=
  match tables with
  | table :: _ => Ok table
  | [] => Raise IndexError
  end.

(** The frame [format_dates] returns: the rows that are left, with Datum
    now a timestamp and with the two columns it adds. *)
Record DatesRecord : Type :=
  mkdates { Veckodag' : string; Datum' : Z; Namn' : string;
            date_start : string; date_end : string }.

Record DatesFrame : Type :=
  mkdatesframe { columns' : list string; rows' : list DatesRecord }.

(** ** The world: web, clock and file system *)

Inductive event : Type :=
| Request (url : string)         (* pd.read_html(url) *)
| Sleep (seconds : Z)            (* time.sleep(seconds) *)
| Open (path : string)           (* open(path, 'w') *)
| Write (text : string).         (* file.write(text) *)

Record world : Type :=
  mkworld {
    web : string -> result (list Table);  (* what read_html gives for a URL *)
    writable : bool;                      (* whether open(..., 'w') succeeds *)
    file : option string;                 (* the text of the output file, if it exists *)
    trace : list event                    (* what has happened, oldest first *)
  }.

Definition log (e : event) (w : world) : world :=
  mkworld (web w) (writable w) (file w) (trace w ++ [e]).

Definition set_file (text : string) (w : world) : world :=
  mkworld (web w) (writable w) (Some text) (trace w).

(** A computation reads and changes the world and returns or raises. *)
Definition M (A : Type) : Type := world -> result A * world.

Definition ret {A : Type} (a : A) : M A := fun w => (Ok a, w).

Definition bind {A B : Type} (m : M A) (k : A -> M B) : M B :=
  fun w =>
    match m w with
    | (Ok a, w') => k a w'
    | (Raise e, w') => (Raise e, w')
    end.

Definition lift {A : Type} (r : result A) : M A := fun w => (r, w).

Notation "x <- m ;; k" := (bind m (fun x => k))
  (at level 61, m at next level, right associativity).
Notation "m ;;; k" := (bind m (fun _ => k))
  (at level 61, right associativity).

Definition read_html (url : string) : M (list Table) :=
  fun w => (web w url, log (Request url) w).

Definition time_sleep (seconds : Z) : M unit :=
  fun w => (Ok tt, log (Sleep seconds) w).

(** [open(path, 'w')] creates the file or empties it. *)
Definition open_w (path : string) : M unit :=
  fun w =>
    if writable w then (Ok tt, set_file "" (log (Open path) w))
    else (Raise (OSError path), log (Open path) w).

(** [file.write(text)] adds the text at the end of the open file. A write
    that fails after the file has been opened is not part of the model:
    once the file is open, the text is written. *)
Definition file_write (text : string) : M unit :=
  fun w =>
    let old := match file w with Some t => t | None => "" end in
    (Ok tt, set_file (old ++ text) (log (Write text) w)).

(** ** The class *)

Record RödaDagar : Type := mkself { years : list Z; weekends : bool }.

Definition url : string := "https://www.kalender.se/helgdagar/".

(** The loop of [download_dates], with the frame built so far. *)
Fixpoint download_loop (ys : list Z) (df : DataFrame) : M DataFrame :=
  match ys with
  | [] => ret df
  | y :: ys' =>
      let year_url := url ++ str_int y in
      tables <- read_html year_url ;;
      table <- lift (first_table tables) ;;
      let df := append df table in
      time_sleep 5 ;;;
      download_loop ys' df
  end.

Definition download_dates (self : RödaDagar) : M DataFrame :=
  let df := DataFrame_new in
  download_loop (years self) df.

(** [df[~df['Veckodag'].isin(['Lördag', 'Söndag'])]] *)
Definition drop_weekends (df : DataFrame) : result DataFrame :=
  rbind (getitem (columns df) "Veckodag") (fun _ =>
    Ok (mkframe (columns df)
          (filter (fun r => negb (isin ["Lördag"; "Söndag"] (Veckodag r))) (rows df)))).

(** [column.astype(str).replace('-', '', regex=True)] for one value of the
    column. *)
Definition date_text (col : list Z) (t : Z) : string :=
  replace_hyphen (astype_str col t).

Fixpoint zip_dates (rs : list HolidayRecord) (datum : list Z)
         (starts ends : list string) : list DatesRecord :=
  match rs, datum, starts, ends with
  | r :: rs', t :: datum', s :: starts', e :: ends' =>
      mkdates (Veckodag r) t (Namn r) s e :: zip_dates rs' datum' starts' ends'
  | _, _, _, _ => []
  end.

(** The body of [format_dates] after the download. The operations are on
    whole columns, in the order of the source: every date is parsed before
    any day is added, and each of the two texts is printed from its own
    column. *)
Definition format_frame (keep_weekends : bool) (df : DataFrame) : result DatesFrame :=
  rbind (if negb keep_weekends then drop_weekends df else Ok df) (fun df =>
  rbind (getitem (columns df) "Datum") (fun _ =>
  rbind (rmap to_datetime (map Datum (rows df))) (fun datum =>
  let date_start := map (date_text datum) datum in
  rbind (rmap add_day datum) (fun shifted =>
  let date_end := map (date_text shifted) shifted in
    Ok (mkdatesframe (columns df ++ ["date_start"; "date_end"])%list
                     (zip_dates (rows df) datum date_start date_end)))))).

Definition format_dates (self : RödaDagar) : M DatesFrame :=
  df <- download_dates self ;;
  lift (format_frame (weekends self) df).

(** [template.format(a, b, ...)] for a template whose only fields are [{}]:
    each one is replaced by the next argument, which is not looked into. *)
Fixpoint str_format (template : string) (args : list string) : result string :=
  match template with
  | EmptyString => Ok EmptyString
  | String c rest =>
      match c, rest with
      | "{"%char, String "}"%char rest' =>
          match args with
          | a :: args' => rbind (str_format rest' args') (fun t => Ok (a ++ t))
          | [] => Raise IndexError
          end
      | _, _ => rbind (str_format rest args) (fun t => Ok (String c t))
      end
  end.

Definition calendar_template : string :=
  "BEGIN:VCALENDAR" ++ LF ++
  "VERSION:2.0" ++ LF ++
  "{}" ++
  "END:VCALENDAR".

Definition event_template : string :=
  "BEGIN:VEVENT" ++ LF ++
  "DTSTART:{}" ++ LF ++
  "DTEND:{}" ++ LF ++
  "SUMMARY:{}" ++ LF ++
  "END:VEVENT" ++ LF.

(** [zip(start_dates, end_dates, summaries)] *)
Fixpoint zip3 (a b c : list string) : list (string * string * string) :=
  match a, b, c with
  | x :: a', y :: b', z :: c' => (x, y, z) :: zip3 a' b' c'
  | _, _, _ => []
  end.

(** The loop over the zipped columns and the join: the text that goes into
    the calendar template. *)
Definition render_events (triples : list (string * string * string)) : result string :=
  rbind (rmap (fun '(start, end_, summary) =>
                 str_format event_template [start; end_; summary]) triples)
        (fun events => Ok (String.concat "" events)).

Definition output_path : string := "röda_dagar.ics".

(** [with open('röda_dagar.ics', 'w') as file: file.write(text)]; the
    argument of [write] is evaluated after the file is opened. *)
Definition write_ics (events : string) : M unit :=
  open_w output_path ;;;
  text <- lift (str_format calendar_template [events]) ;;
  file_write text.

(** The renderer: from the zipped triples to the written file. *)
Definition render_ics (triples : list (string * string * string)) : M unit :=
  events <- lift (render_events triples) ;;
  write_ics events.

(** The text the renderer computes, without the file. *)
Definition render (triples : list (string * string * string)) : result string :=
  rbind (render_events triples) (fun events =>
    str_format calendar_template [events]).

Definition create_ics (self : RödaDagar) : M unit :=
  df <- format_dates self ;;
  lift (getitem (columns' df) "date_start") ;;;
  let start_dates := map date_start (rows' df) in
  lift (getitem (columns' df) "date_end") ;;;
  let end_dates := map date_end (rows' df) in
  lift (getitem (columns' df) "Namn") ;;;
  let summaries := map Namn' (rows' df) in
  render_ics (zip3 start_dates end_dates summaries).

(** A world in which nothing has happened yet. *)
Definition fresh (pages : string -> result (list Table)) : world :=
  mkworld pages true None [].

(** A web that serves the same single table for every URL. *)
Definition pages_of (t : Table) : string -> result (list Table) :=
  fun _ => Ok [t].

(** ** Specification vocabulary *)

(** The rows [format_dates] keeps. *)
Definition kept_rows (keep_weekends : bool) (rs : list HolidayRecord) : list HolidayRecord :=
  filter (fun r => keep_weekends ||
                   negb (String.eqb (Veckodag r) "Lördag" || String.eqb (Veckodag r) "Söndag"))
         rs.


(** How an output row relates to the input row it comes from, in a frame
    whose timestamp column is [datum] and whose shifted column is
    [shifted]. *)
Definition formatted (datum shifted : list Z) (r : HolidayRecord) (o : DatesRecord) : Prop :=
  Veckodag' o = Veckodag r /\
  Namn' o = Namn r /\
  to_datetime (Datum r) = Ok (Datum' o) /\
  date_start o = date_text datum (Datum' o) /\
  exists t', add_day (Datum' o) = Ok t' /\ date_end o = date_text shifted t'.


(** The event block and the document, as the format prescribes them. *)
Definition vevent (triple : string * string * string) : string :=
  let '(start, end_, summary) := triple in
  "BEGIN:VEVENT" ++ LF ++
  "DTSTART:" ++ start ++ LF ++
  "DTEND:" ++ end_ ++ LF ++
  "SUMMARY:" ++ summary ++ LF ++
  "END:VEVENT" ++ LF.

Definition vcalendar (triples : list (string * string * string)) : string :=
  "BEGIN:VCALENDAR" ++ LF ++ "VERSION:2.0" ++ LF ++
  fold_right String.append "" (map vevent triples) ++
  "END:VCALENDAR".

(** The triples [create_ics] zips from a frame. *)
Definition triples_of (rs : list DatesRecord) : list (string * string * string) :=
  map (fun o => (date_start o, date_end o, Namn' o)) rs.

Definition is_net (e : event) : bool :=
  match e with
  | Request _ | Sleep _ => true
  | Open _ | Write _ => false
  end.

Definition is_sleep (e : event) : bool :=
  match e with Sleep _ => true | _ => false end.

Definition is_request (e : event) : bool :=
  match e with Request _ => true | _ => false end.

(** What one year adds to the trace. *)
Definition year_events (y : Z) : list event :=
  [Request (url ++ str_int y); Sleep 5].

(** The first table of a year's page. *)
Definition year_table (pages : string -> result (list Table)) (y : Z) : result Table :=
  rbind (pages (url ++ str_int y)) first_table.



(** ** Concrete inputs for the scenarios *)

Definition leap_frame : DataFrame :=
  mkframe table_columns
    [mkrecord "Onsdag" "2024-02-28" "leap"; mkrecord "Tisdag" "2023-02-28" "common"].

Definition scenario_frame : DataFrame :=
  mkframe table_columns
    [mkrecord "Måndag" "2024-01-01" "Nyårsdagen";
     mkrecord "Lördag" "2024-01-06" "Trettondedag jul"].

Definition scenario_out : DatesFrame :=
  mkdatesframe (table_columns ++ ["date_start"; "date_end"])%list
    [mkdates "Måndag" (days_from_civil (mkdate 2024 1 1) * NS_PER_DAY)
             "Nyårsdagen" "20240101" "20240102"].

Definition year_2024 : Table :=
  [mkrecord "Måndag" "2024-01-01" "Nyårsdagen";
   mkrecord "Lördag" "2024-01-06" "Trettondedag jul"].

Definition bad_date_table : Table := [mkrecord "Måndag" "not-a-date" "x"].

(** ** The prompt

    The main block reads a line, splits it at the commas and converts
    each piece with [int]; then it reads an answer, evaluates it with
    [literal_eval] and runs [create_ics]. The line and the answer are what
    the two prompts returned. The conversions are parameters, so that the
    statements hold whatever they accept: [int], and [literal_eval], which
    gives the truth value of the literal that the answer denotes, as [not]
    takes it, or raises. *)

(** [line.split(',')] *)
Fixpoint split_comma (line : string) : list string :=
  match line with
  | EmptyString => [EmptyString]
  | String c rest =>
      if Ascii.eqb c ","%char then EmptyString :: split_comma rest
      else match split_comma rest with
           | piece :: pieces => String c piece :: pieces
           | [] => [String c EmptyString]
           end
  end.

Definition main (int : string -> result Z) (literal_eval : string -> result bool)
           (line answer : string) : M unit :=
  years <- lift (rmap int (split_comma line)) ;;
  weekends <- lift (literal_eval answer) ;;
  let holiday := mkself years weekends in
  create_ics holiday.

(** ** More vocabulary and inputs for the examples *)

Fixpoint all_digits (s : string) : bool :=
  match s with
  | EmptyString => true
  | String c s' =>
      match digit_of c with
      | Some _ => all_digits s'
      | None => false
      end
  end.

Fixpoint count_commas (s : string) : nat :=
  match s with
  | EmptyString => O
  | String c s' => if Ascii.eqb c ","%char then S (count_commas s') else count_commas s'
  end.

(** A conversion that accepts the plain decimal numerals, for running
    the prompt on examples. *)
Fixpoint digits_value (acc : Z) (s : string) : Z :=
  match s with
  | EmptyString => acc
  | String c s' =>
      match digit_of c with
      | Some d => digits_value (10 * acc + d) s'
      | None => acc
      end
  end.

Definition int_digits (s : string) : result Z :=
  match s with
  | EmptyString => Raise (ValueError s)
  | String _ _ => if all_digits s then Ok (digits_value 0 s) else Raise (ValueError s)
  end.

(** An evaluation that accepts the two Boolean literals, for running the
    prompt on examples. *)
Definition eval_bool (s : string) : result bool :=
  if String.eqb s "True" then Ok true
  else if String.eqb s "False" then Ok false
  else Raise (ValueError s).

(** A web in which the page of one year fails. *)
Definition pages_until (last : Z) (t : Table) : string -> result (list Table) :=
  fun u => if String.eqb u (url ++ str_int last) then Raise (FetchError u) else Ok [t].

(** The triples of a frame, from its columns. *)
Fixpoint zip_texts (names : list string) (datum : list Z)
         (starts ends : list string) : list (string * string * string) :=
  match names, datum, starts, ends with
  | n :: names', _ :: datum', s :: starts', e :: ends' =>
      (s, e, n) :: zip_texts names' datum' starts' ends'
  | _, _, _, _ => []
  end.


Definition saturday_bad_date : Table := [mkrecord "Lördag" "not-a-date" "x"].

(** A [to_datetime] that rejects every text the definition leaves open,
    and a printer for columns with a time of day, for running the
    examples. *)
Definition reject_other : string -> result Z := fun s => Raise (ValueError s).

Definition no_print : list Z -> Z -> string := fun _ _ => EmptyString.

Definition empty_date_frame : DataFrame :=
  mkframe table_columns [mkrecord "Måndag" "" "x"].

(** * Theorems *)

(** ** The calendar *)















(** ** Date texts *)







Lemma in_bounds_range (d : date) :
  in_bounds d = true -> 1677 <= year d <= 2262.
Proof.
  unfold in_bounds, date_ltb, min_date, max_date. cbn [year month day]. intros H.
  apply andb_true_iff in H as [Hlo Hhi].
  apply negb_true_iff in Hhi.
  apply orb_false_iff in Hhi as [Hhi _].
  apply orb_true_iff in Hlo as [Hlo|Hlo]; [lia|].
  apply andb_true_iff in Hlo as [Hlo _]. lia.
Qed.







(** ** Parsing and printing timestamps *)

Lemma to_datetime_empty : to_datetime "" = Ok NaT.
Proof. reflexivity. Qed.





Lemma date_text_NaT (col : list Z) : date_text col NaT = "NaT".
Proof. reflexivity. Qed.





(** ** Results over lists *)

Lemma rmap_Forall2 {A B : Type} (f : A -> result B) (l : list A) :
  forall l', rmap f l = Ok l' -> Forall2 (fun a b => f a = Ok b) l l'.
Proof.
  induction l as [|a l IH]; simpl; intros l' H.
  - injection H as <-. constructor.
  - destruct (f a) as [b|e] eqn:Ea; simpl in H; [|discriminate].
    destruct (rmap f l) as [bs|e] eqn:El; simpl in H; [|discriminate].
    injection H as <-. constructor; auto.
Qed.

Lemma Forall2_rmap {A B : Type} (f : A -> result B) (l : list A) (l' : list B) :
  Forall2 (fun a b => f a = Ok b) l l' -> rmap f l = Ok l'.
Proof.
  induction 1 as [|a b l l' Hab _ IH]; simpl; [reflexivity|].
  rewrite Hab. simpl. rewrite IH. reflexivity.
Qed.

Lemma rmap_raise {A B : Type} (f : A -> result B) (l : list A) (a : A) (e : exn) :
  In a l -> f a = Raise e -> exists e', rmap f l = Raise e'.
Proof.
  induction l as [|x l IH]; simpl; intros Hin Hf; [contradiction|].
  destruct Hin as [->|Hin].
  - rewrite Hf. simpl. eauto.
  - destruct (f x); simpl; eauto.
    destruct (IH Hin Hf) as [e' ->]. simpl. eauto.
Qed.

Lemma rmap_app {A B : Type} (f : A -> result B) (l1 l2 : list A) :
  rmap f (l1 ++ l2)%list =
  rbind (rmap f l1) (fun b1 => rbind (rmap f l2) (fun b2 => Ok (b1 ++ b2)%list)).
Proof.
  induction l1 as [|a l1 IH]; simpl.
  - destruct (rmap f l2); reflexivity.
  - destruct (f a); simpl; [|reflexivity].
    rewrite IH. destruct (rmap f l1); simpl; [|reflexivity].
    destruct (rmap f l2); reflexivity.
Qed.

Lemma rmap_length {A B : Type} (f : A -> result B) (l : list A) (l' : list B) :
  rmap f l = Ok l' -> List.length l' = List.length l.
Proof.
  intros H. apply rmap_Forall2 in H. symmetry. exact (Forall2_length H).
Qed.

Lemma rmap_raise_inv {A B : Type} (f : A -> result B) (l : list A) (e : exn) :
  rmap f l = Raise e -> exists a, In a l /\ f a = Raise e.
Proof.
  induction l as [|a l IH]; cbn [rmap]; intros H; [discriminate|].
  destruct (f a) as [b|e0] eqn:Ea; cbn [rbind] in H.
  - destruct (rmap f l) as [bs|e1]; cbn [rbind] in H; [discriminate|].
    injection H as ->. destruct (IH eq_refl) as (x & Hx & Hf).
    exists x. split; [right; exact Hx|exact Hf].
  - injection H as ->. exists a. split; [left; reflexivity|exact Ea].
Qed.

(** The frame a fetch over a non-empty year list returns. *)
(** ** The transformer *)

Lemma isin_weekend (v : string) :
  isin ["Lördag"; "Söndag"] v = (String.eqb v "Lördag" || String.eqb v "Söndag").
Proof. unfold isin. simpl. rewrite orb_false_r. reflexivity. Qed.

Lemma kept_rows_true (rs : list HolidayRecord) : kept_rows true rs = rs.
Proof.
  unfold kept_rows. induction rs as [|r rs IH]; [reflexivity|].
  cbn [filter orb]. f_equal. exact IH.
Qed.

Lemma kept_rows_false (rs : list HolidayRecord) :
  kept_rows false rs =
  filter (fun r => negb (isin ["Lördag"; "Söndag"] (Veckodag r))) rs.
Proof.
  unfold kept_rows. apply filter_ext. intros r.
  rewrite isin_weekend. reflexivity.
Qed.

Lemma zip_dates_column (rs : list HolidayRecord) :
  forall (datum shifted : list Z) (D S : list Z),
    List.length datum = List.length rs ->
    List.length shifted = List.length rs ->
    map Datum' (zip_dates rs datum (map (date_text D) datum) (map (date_text S) shifted))
    = datum.
Proof.
  induction rs as [|r rs IH]; intros datum shifted D S H1 H2.
  - destruct datum; [reflexivity|discriminate].
  - destruct datum as [|t datum]; [discriminate|].
    destruct shifted as [|t' shifted]; [discriminate|].
    cbn [map zip_dates Datum']. f_equal. apply IH; [injection H1|injection H2]; auto.
Qed.

Lemma zip_dates_formatted (rs : list HolidayRecord) :
  forall (datum shifted : list Z) (D S : list Z),
    rmap to_datetime (map Datum rs) = Ok datum ->
    rmap add_day datum = Ok shifted ->
    Forall2 (formatted D S) rs
            (zip_dates rs datum (map (date_text D) datum) (map (date_text S) shifted)).
Proof.
  induction rs as [|r rs IH]; cbn [map rmap]; intros datum shifted D S H1 H2.
  - constructor.
  - destruct (to_datetime (Datum r)) as [t|e] eqn:Et; cbn [rbind] in H1; [|discriminate].
    destruct (rmap to_datetime (map Datum rs)) as [ts|e] eqn:Ets; cbn [rbind] in H1;
      [|discriminate].
    injection H1 as <-. cbn [rmap] in H2.
    destruct (add_day t) as [t'|e] eqn:Et'; cbn [rbind] in H2; [|discriminate].
    destruct (rmap add_day ts) as [ts'|e] eqn:Ets'; cbn [rbind] in H2; [|discriminate].
    injection H2 as <-. cbn [map zip_dates].
    constructor; [|apply IH; auto].
    unfold formatted. cbn [Veckodag' Namn' Datum' date_start date_end].
    repeat split; auto. exists t'. auto.
Qed.

(** What a successful [format_frame] did. *)
Lemma format_frame_inv (flag : bool) (df : DataFrame) (out : DatesFrame) :
  format_frame flag df = Ok out ->
  (exists shifted,
      rmap to_datetime (map Datum (kept_rows flag (rows df)))
        = Ok (map Datum' (rows' out)) /\
      rmap add_day (map Datum' (rows' out)) = Ok shifted /\
      Forall2 (formatted (map Datum' (rows' out)) shifted)
              (kept_rows flag (rows df)) (rows' out)) /\
  columns' out = (columns df ++ ["date_start"; "date_end"])%list /\
  has_label "Datum" (columns df) = true.
Proof.
  unfold format_frame. intros H.
  assert (Hdf : (if negb flag then drop_weekends df else Ok df) =
                Ok (mkframe (columns df) (kept_rows flag (rows df))) \/
                exists e, (if negb flag then drop_weekends df else Ok df) = Raise e).
  { destruct flag; simpl.
    - left. rewrite kept_rows_true. destruct df; reflexivity.
    - unfold drop_weekends. destruct (getitem (columns df) "Veckodag"); simpl.
      + left. rewrite kept_rows_false. reflexivity.
      + right. eauto. }
  destruct Hdf as [Hdf|[e Hdf]]; rewrite Hdf in H; cbn [rbind columns rows] in H;
    [|discriminate].
  unfold getitem in H.
  destruct (has_label "Datum" (columns df)) eqn:Hl; cbn [rbind] in H; [|discriminate].
  destruct (rmap to_datetime _) as [datum|e] eqn:E1; cbn [rbind] in H; [|discriminate].
  cbv zeta in H.
  destruct (rmap add_day datum) as [shifted|e] eqn:E2; cbn [rbind] in H; [|discriminate].
  injection H as <-. cbn [rows' columns'].
  pose proof (rmap_length _ _ _ E1) as Hl1. rewrite length_map in Hl1.
  pose proof (rmap_length _ _ _ E2) as Hl2. rewrite Hl1 in Hl2.
  rewrite (zip_dates_column _ datum shifted datum shifted Hl1 Hl2).
  split; [|split; reflexivity].
  exists shifted. split; [reflexivity|]. split; [exact E2|].
  apply zip_dates_formatted; assumption.
Qed.


Lemma Forall2_In_l {A B : Type} (R : A -> B -> Prop) (l : list A) (l' : list B) (a : A) :
  Forall2 R l l' -> In a l -> exists b, In b l' /\ R a b.
Proof.
  induction 1 as [|x y l l' Hxy _ IH]; simpl; intros Hin; [contradiction|].
  destruct Hin as [->|Hin]; [eauto|].
  destruct (IH Hin) as (b & Hb & HR). eauto.
Qed.

Lemma kept_rows_In (flag : bool) (rs : list HolidayRecord) (r : HolidayRecord) :
  In r (kept_rows flag rs) <->
  In r rs /\ (flag = true \/ (Veckodag r <> "Lördag" /\ Veckodag r <> "Söndag")).
Proof.
  unfold kept_rows. rewrite filter_In.
  rewrite orb_true_iff, negb_true_iff, orb_false_iff, !String.eqb_neq.
  reflexivity.
Qed.




(** ** Claims about the transformer *)


(** C2. When the weekends flag is false, exactly the records whose
    Veckodag text equals "Lördag" or "Söndag" are removed; when it is true
    none is. The output rows are the kept records in input order, so the
    output is never longer than the input. *)
Theorem weekend_filter (flag : bool) (df : DataFrame) (out : DatesFrame) :
  format_frame flag df = Ok out ->
  (exists shifted,
      rmap add_day (map Datum' (rows' out)) = Ok shifted /\
      Forall2 (formatted (map Datum' (rows' out)) shifted)
              (kept_rows flag (rows df)) (rows' out)) /\
  (forall r, In r (kept_rows flag (rows df)) <->
             In r (rows df) /\
             (flag = true \/ (Veckodag r <> "Lördag" /\ Veckodag r <> "Söndag"))) /\
  (flag = true -> kept_rows flag (rows df) = rows df) /\
  (List.length (rows' out) <= List.length (rows df))%nat.
Proof.
  intros H.
  destruct (format_frame_inv flag df out H) as ((shifted & _ & Hs & HF) & _ & _).
  split; [exists shifted; auto|].
  split; [intros r; apply kept_rows_In|].
  split; [intros ->; apply kept_rows_true|].
  rewrite <- (Forall2_length HF). unfold kept_rows. apply filter_length_le.
Qed.

(** C9. With the weekends flag false a record whose Veckodag is "Lördag"
    or "Söndag" is dropped before any date is parsed: the result of
    [format_dates] is the one for the table without that record, whatever
    its Datum text is, so an unparseable Datum on it raises nothing. *)
Theorem weekend_dates_not_parsed
  (cols : list string) (l1 l2 : list HolidayRecord) (r : HolidayRecord) :
  Veckodag r = "Lördag" \/ Veckodag r = "Söndag" ->
  format_frame false (mkframe cols (l1 ++ r :: l2)) =
  format_frame false (mkframe cols (l1 ++ l2)).
Proof.
  intros Hw. unfold format_frame, drop_weekends. cbn [negb rows columns].
  destruct (getitem cols "Veckodag"); [|reflexivity].
  cbn [rbind]. rewrite !filter_app. cbn [filter].
  assert (E : isin ["Lördag"; "Söndag"] (Veckodag r) = true).
  { rewrite isin_weekend. destruct Hw as [-> | ->]; reflexivity. }
  rewrite E. reflexivity.
Qed.

(** ** The renderer *)

Lemma append_empty_r (s : string) : s ++ "" = s.
Proof. induction s as [|c s IH]; simpl; [reflexivity|]. rewrite IH. reflexivity. Qed.

Lemma join_empty (l : list string) :
  String.concat "" l = fold_right String.append "" l.
Proof.
  induction l as [|x l IH]; [reflexivity|].
  destruct l as [|y l].
  - simpl. rewrite append_empty_r. reflexivity.
  - change (String.concat "" (x :: y :: l)) with (x ++ "" ++ String.concat "" (y :: l)).
    rewrite IH. reflexivity.
Qed.

Lemma event_block (start end_ summary : string) :
  str_format event_template [start; end_; summary] = Ok (vevent (start, end_, summary)).
Proof. reflexivity. Qed.

Lemma render_events_blocks (triples : list (string * string * string)) :
  render_events triples = Ok (fold_right String.append "" (map vevent triples)).
Proof.
  unfold render_events.
  assert (H : rmap (fun '(start, end_, summary) =>
                      str_format event_template [start; end_; summary]) triples
              = Ok (map vevent triples)).
  { induction triples as [|[[s e] n] l IH]; [reflexivity|].
    cbn [rmap map]. rewrite event_block, IH. reflexivity. }
  rewrite H. cbn [rbind]. rewrite join_empty. reflexivity.
Qed.

Lemma calendar_wrap (events : string) :
  str_format calendar_template [events] =
  Ok ("BEGIN:VCALENDAR" ++ LF ++ "VERSION:2.0" ++ LF ++ events ++ "END:VCALENDAR").
Proof. reflexivity. Qed.

Lemma render_vcalendar (triples : list (string * string * string)) :
  render triples = Ok (vcalendar triples).
Proof.
  unfold render. rewrite render_events_blocks. cbn [rbind].
  rewrite calendar_wrap. reflexivity.
Qed.

(** One run of the renderer, in full. *)
Lemma render_ics_run (triples : list (string * string * string)) (w : world) :
  render_ics triples w =
  if writable w
  then (Ok tt,
        mkworld (web w) true (Some (vcalendar triples))
                (trace w ++ [Open output_path; Write (vcalendar triples)]))
  else (Raise (OSError output_path), log (Open output_path) w).
Proof.
  unfold render_ics, write_ics, bind, lift, open_w, file_write.
  rewrite render_events_blocks.
  destruct w as [pages wr f tr]. cbn [writable].
  destruct wr; [|reflexivity].
  rewrite calendar_wrap. unfold set_file, log. cbn [web writable file trace].
  rewrite <- app_assoc. reflexivity.
Qed.

(** C3. For every list of triples the renderer's text is the two header
    lines, then one VEVENT block per triple in input order with nothing
    between the blocks, then END:VCALENDAR without a newline after it; a
    run of the renderer leaves exactly this text in the output file. *)
Theorem render_document (triples : list (string * string * string)) :
  render triples =
    Ok ("BEGIN:VCALENDAR" ++ LF ++ "VERSION:2.0" ++ LF ++
        fold_right String.append "" (map vevent triples) ++ "END:VCALENDAR") /\
  (forall start end_ summary,
      vevent (start, end_, summary) =
      "BEGIN:VEVENT" ++ LF ++ "DTSTART:" ++ start ++ LF ++ "DTEND:" ++ end_ ++ LF ++
      "SUMMARY:" ++ summary ++ LF ++ "END:VEVENT" ++ LF) /\
  (forall pages f tr,
      file (snd (render_ics triples (mkworld pages true f tr))) =
      Some (vcalendar triples)).
Proof.
  split; [apply render_vcalendar|].
  split; [reflexivity|].
  intros pages f tr. rewrite render_ics_run. reflexivity.
Qed.

(** C8. The text the renderer leaves in the file depends on the list of
    triples alone: two runs on the same list, from any two worlds in which
    the file can be opened, leave the same text, and so does a second run
    right after a first. *)
Theorem render_deterministic (triples : list (string * string * string)) :
  (forall pages1 f1 tr1 pages2 f2 tr2,
      file (snd (render_ics triples (mkworld pages1 true f1 tr1))) =
      file (snd (render_ics triples (mkworld pages2 true f2 tr2)))) /\
  (forall pages f tr,
      let w1 := snd (render_ics triples (mkworld pages true f tr)) in
      file (snd (render_ics triples w1)) = file w1).
Proof.
  split.
  - intros. rewrite !render_ics_run. reflexivity.
  - intros pages f tr w1. subst w1. rewrite !render_ics_run. reflexivity.
Qed.


(** ** The fetcher *)

Lemma append_new (t : Table) : append DataFrame_new t = mkframe table_columns t.
Proof. reflexivity. Qed.

Lemma append_full (rs : list HolidayRecord) (t : Table) :
  append (mkframe table_columns rs) t = mkframe table_columns (rs ++ t)%list.
Proof. reflexivity. Qed.

Lemma fold_append_full (tables : list Table) :
  forall rs,
    fold_left append tables (mkframe table_columns rs) =
    mkframe table_columns (rs ++ List.concat tables)%list.
Proof.
  induction tables as [|t tables IH]; intros rs; simpl.
  - rewrite app_nil_r. reflexivity.
  - rewrite append_full, IH, <- app_assoc. reflexivity.
Qed.

(** The frame that the loop builds from the tables of the years. *)
Lemma fold_append_new (tables : list Table) :
  fold_left append tables DataFrame_new =
  match tables with
  | [] => DataFrame_new
  | _ :: _ => mkframe table_columns (List.concat tables)
  end.
Proof.
  destruct tables as [|t tables]; [reflexivity|].
  cbn [fold_left]. rewrite append_new, fold_append_full. reflexivity.
Qed.

Lemma rows_fold_append (tables : list Table) :
  forall df, rows (fold_left append tables df) = (rows df ++ List.concat tables)%list.
Proof.
  induction tables as [|t tables IH]; intros df; simpl.
  - rewrite app_nil_r. reflexivity.
  - rewrite IH. simpl. rewrite <- app_assoc. reflexivity.
Qed.

(** When every year's page has a first table the loop returns, having
    made one request and one pause per year. *)
Lemma download_loop_ok (ys : list Z) :
  forall df w tables,
    rmap (year_table (web w)) ys = Ok tables ->
    download_loop ys df w =
    (Ok (fold_left append tables df),
     mkworld (web w) (writable w) (file w) (trace w ++ flat_map year_events ys)).
Proof.
  induction ys as [|y ys IH]; intros df w tables H.
  - simpl in H. injection H as <-. simpl. unfold ret.
    rewrite app_nil_r. destruct w; reflexivity.
  - simpl in H. unfold year_table at 1 in H.
    destruct (web w (url ++ str_int y)) as [ts|e] eqn:Ew; simpl in H; [|discriminate].
    destruct (first_table ts) as [t|e] eqn:Et; simpl in H; [|discriminate].
    destruct (rmap (year_table (web w)) ys) as [tl|e] eqn:El; simpl in H; [|discriminate].
    injection H as <-.
    cbn [download_loop]. unfold bind at 1. unfold read_html. rewrite Ew.
    unfold bind at 1. unfold lift at 1. rewrite Et.
    unfold bind at 1. unfold time_sleep.
    rewrite (IH _ _ tl) by exact El.
    unfold log. cbn [web writable file trace fold_left flat_map year_events].
    rewrite <- !app_assoc. reflexivity.
Qed.

(** Whatever happens, the loop only adds requests and pauses to the trace
    and leaves the rest of the world alone. *)
Lemma download_loop_net (ys : list Z) :
  forall df w,
    exists net,
      snd (download_loop ys df w) =
      mkworld (web w) (writable w) (file w) (trace w ++ net) /\
      forallb is_net net = true.
Proof.
  induction ys as [|y ys IH]; intros df w.
  - exists []. simpl. rewrite app_nil_r. destruct w; auto.
  - cbn [download_loop]. unfold bind at 1. unfold read_html.
    destruct (web w (url ++ str_int y)) as [ts|e].
    + unfold bind at 1. unfold lift at 1.
      destruct (first_table ts) as [t|e].
      * unfold bind at 1. unfold time_sleep.
        destruct (IH (append df t) (log (Sleep 5) (log (Request (url ++ str_int y)) w)))
          as (net & Hw & Hn).
        exists (Request (url ++ str_int y) :: Sleep 5 :: net).
        rewrite Hw. unfold log. cbn [web writable file trace].
        rewrite <- !app_assoc. auto.
      * exists [Request (url ++ str_int y)]. auto.
    + exists [Request (url ++ str_int y)]. auto.
Qed.

(** A loop that returns has found a table for every year. *)
Lemma download_loop_tables (ys : list Z) :
  forall df w df',
    fst (download_loop ys df w) = Ok df' ->
    exists tables, rmap (year_table (web w)) ys = Ok tables.
Proof.
  induction ys as [|y ys IH]; intros df w df' H.
  - exists []. reflexivity.
  - cbn [download_loop] in H. unfold bind at 1 in H. unfold read_html in H.
    cbn [rmap]. unfold year_table at 1.
    destruct (web w (url ++ str_int y)) as [ts|e]; [|discriminate].
    unfold bind at 1 in H. unfold lift at 1 in H. cbn [rbind].
    destruct (first_table ts) as [t|e]; [|discriminate].
    unfold bind at 1 in H. unfold time_sleep in H.
    apply IH in H as [tl Htl]. cbn [web log] in Htl.
    cbn [rbind]. rewrite Htl. cbn [rbind]. eauto.
Qed.

Lemma sleeps_per_year (ys : list Z) :
  List.length (filter is_sleep (flat_map year_events ys)) = List.length ys.
Proof. induction ys as [|y ys IH]; simpl; auto. Qed.

Lemma requests_per_year (ys : list Z) :
  filter is_request (flat_map year_events ys) =
  map (fun y => Request (url ++ str_int y)) ys.
Proof. induction ys as [|y ys IH]; simpl; [|rewrite IH]; reflexivity. Qed.

(** C7. When every requested year's page has a first table, the fetcher
    makes one request per element of the year list, in the order of the
    list, and returns the tables' rows concatenated in that order, each
    table's rows in their own order; a year listed twice is requested
    twice and contributes its rows twice. *)
Theorem fetch_concatenates (self : RödaDagar) (w : world) (tables : list Table) :
  rmap (year_table (web w)) (years self) = Ok tables ->
  exists df w',
    download_dates self w = (Ok df, w') /\
    rows df = List.concat tables /\
    Forall2 (fun y t => year_table (web w) y = Ok t) (years self) tables /\
    filter is_request (trace w') =
      (filter is_request (trace w) ++
       map (fun y => Request (url ++ str_int y)) (years self))%list.
Proof.
  intros H. unfold download_dates.
  rewrite (download_loop_ok _ _ _ _ H).
  eexists. eexists. split; [reflexivity|].
  split; [rewrite rows_fold_append; reflexivity|].
  split; [apply rmap_Forall2, H|].
  cbn [trace]. rewrite filter_app, requests_per_year. reflexivity.
Qed.

Lemma fetch_concatenates_witness :
  exists df w',
    download_dates (mkself [2024; 2024] true) (fresh (pages_of year_2024)) = (Ok df, w') /\
    rows df = List.concat [year_2024; year_2024] /\
    Forall2 (fun y t => year_table (pages_of year_2024) y = Ok t)
            [2024; 2024] [year_2024; year_2024] /\
    filter is_request (trace w') =
      ([] ++ map (fun y => Request (url ++ str_int y)) [2024; 2024])%list.
Proof.
  apply (fetch_concatenates (mkself [2024; 2024] true) (fresh (pages_of year_2024))
           [year_2024; year_2024]).
  reflexivity.
Defined.

(** C6, as the code has it. A fetch that returns has paused for 5 seconds
    right after every request, the last one included: the trace grows by a
    request and a pause per year, so n requests come with n pauses. *)
Theorem pause_after_every_request (self : RödaDagar) (w : world) (df : DataFrame) :
  fst (download_dates self w) = Ok df ->
  trace (snd (download_dates self w)) =
    (trace w ++ flat_map (fun y => [Request (url ++ str_int y); Sleep 5]) (years self))%list /\
  List.length (filter is_sleep
                 (flat_map (fun y => [Request (url ++ str_int y); Sleep 5]) (years self)))
  = List.length (years self).
Proof.
  intros H. unfold download_dates in *.
  destruct (download_loop_tables _ _ _ _ H) as [tables Ht].
  rewrite (download_loop_ok _ _ _ _ Ht). cbn [snd trace].
  split; [reflexivity|apply sleeps_per_year].
Qed.

Lemma pause_after_every_request_witness :
  trace (snd (download_dates (mkself [2024] true) (fresh (pages_of year_2024)))) =
    ([] ++ flat_map (fun y => [Request (url ++ str_int y); Sleep 5]) [2024])%list /\
  List.length (filter is_sleep
                 (flat_map (fun y => [Request (url ++ str_int y); Sleep 5]) [2024]))
  = 1%nat.
Proof.
  apply (pause_after_every_request (mkself [2024] true) (fresh (pages_of year_2024))
           (mkframe table_columns year_2024)).
  reflexivity.
Defined.

(** C6, as the claim has it, fails: one requested year gives one pause,
    not none, and the pause comes after the only, hence last, request. *)
Lemma pause_between_requests_counterexample :
  ~ (forall (ys : list Z) (pages : string -> result (list Table)) (df : DataFrame),
        fst (download_dates (mkself ys true) (fresh pages)) = Ok df ->
        List.length (filter is_sleep
                       (trace (snd (download_dates (mkself ys true) (fresh pages)))))
        = (List.length ys - 1)%nat).
Proof.
  intros H.
  specialize (H [2024] (pages_of year_2024) (mkframe table_columns year_2024) eq_refl).
  vm_compute in H. discriminate H.
Qed.

(** ** The whole run *)

Lemma zip3_triples (rs : list DatesRecord) :
  zip3 (map date_start rs) (map date_end rs) (map Namn' rs) = triples_of rs.
Proof.
  induction rs as [|o rs IH]; simpl; [reflexivity|]. rewrite IH. reflexivity.
Qed.

(** [create_ics], stage by stage. *)
Lemma create_ics_run (self : RödaDagar) (w : world) :
  create_ics self w =
  match download_dates self w with
  | (Ok df, w') =>
      match format_frame (weekends self) df with
      | Ok out =>
          match rbind (getitem (columns' out) "date_start") (fun _ =>
                rbind (getitem (columns' out) "date_end") (fun _ =>
                       getitem (columns' out) "Namn")) with
          | Ok _ => render_ics (triples_of (rows' out)) w'
          | Raise e => (Raise e, w')
          end
      | Raise e => (Raise e, w')
      end
  | (Raise e, w') => (Raise e, w')
  end.
Proof.
  unfold create_ics, format_dates, bind, lift.
  destruct (download_dates self w) as [[df|e] w']; [|reflexivity].
  destruct (format_frame (weekends self) df) as [out|e]; [|reflexivity].
  rewrite zip3_triples.
  destruct (getitem (columns' out) "date_start") as [[]|e]; [|reflexivity].
  destruct (getitem (columns' out) "date_end") as [[]|e]; [|reflexivity].
  destruct (getitem (columns' out) "Namn") as [[]|e]; reflexivity.
Qed.

Lemma download_dates_net (self : RödaDagar) (w : world) :
  exists net,
    snd (download_dates self w) =
    mkworld (web w) (writable w) (file w) (trace w ++ net) /\
    forallb is_net net = true.
Proof. apply download_loop_net. Qed.


(** A kept record whose Datum [to_datetime] rejects makes [format_frame]
    raise. *)
Lemma format_frame_raise (flag : bool) (df : DataFrame) (r : HolidayRecord) (e : exn) :
  In r (kept_rows flag (rows df)) ->
  to_datetime (Datum r) = Raise e ->
  exists e', format_frame flag df = Raise e'.
Proof.
  intros Hin Hp.
  destruct (format_frame flag df) as [out|e'] eqn:E; [|eauto].
  destruct (format_frame_inv flag df out E) as ((shifted & _ & _ & HF) & _ & _).
  destruct (Forall2_In_l _ _ _ _ HF Hin) as (o & _ & _ & _ & Ht & _).
  rewrite Hp in Ht. discriminate.
Qed.

(** A run that returns has opened and written the file as its last two
    steps, after the requests and pauses. *)
Lemma create_ics_writes_last (self : RödaDagar) (w : world) :
  fst (create_ics self w) = Ok tt ->
  exists net doc,
    forallb is_net net = true /\
    trace (snd (create_ics self w)) =
      (trace w ++ net ++ [Open output_path; Write doc])%list /\
    file (snd (create_ics self w)) = Some doc.
Proof.
  rewrite create_ics_run.
  destruct (download_dates_net self w) as (net & Hw & Hn).
  destruct (download_dates self w) as [[df|e] w']; [|discriminate].
  cbn [snd] in Hw. subst w'.
  destruct (format_frame (weekends self) df) as [out|e]; [|discriminate].
  destruct (rbind _ _) as [u|e]; [|discriminate].
  rewrite render_ics_run. cbn [writable].
  destruct (writable w); [|discriminate].
  intros _. exists net, (vcalendar (triples_of (rows' out))).
  cbn [snd trace file]. rewrite <- app_assoc. auto.
Qed.

(** A run that raises leaves the text of the file as it was. *)
(** A run in which the fetch or the transformation raises: the error is
    the run's error, and only requests and pauses have happened. *)
Lemma format_dates_raise (self : RödaDagar) (w : world) (e : exn) :
  fst (format_dates self w) = Raise e ->
  exists net,
    create_ics self w =
      (Raise e, mkworld (web w) (writable w) (file w) (trace w ++ net)) /\
    forallb is_net net = true.
Proof.
  rewrite create_ics_run. unfold format_dates, bind, lift.
  destruct (download_dates_net self w) as (net & Hw & Hn).
  destruct (download_dates self w) as [[df|e0] w']; cbn [snd] in Hw; subst w'.
  - cbn [fst]. intros ->. exists net. auto.
  - cbn [fst]. intros H. injection H as ->. exists net. auto.
Qed.

(** C5, evaluated. For the empty year list the fetcher returns the frame
    of [pd.DataFrame()], which has no columns; [format_dates] then raises
    KeyError at its first column access, so [create_ics] renders and
    writes nothing. The renderer alone, on no triples, gives the empty
    calendar. *)
Theorem empty_years_raise (flag : bool) (w : world) :
  download_dates (mkself [] flag) w = (Ok (mkframe [] []), w) /\
  create_ics (mkself [] flag) w =
    (Raise (KeyError (if flag then "Datum" else "Veckodag")), w) /\
  render [] = Ok ("BEGIN:VCALENDAR" ++ LF ++ "VERSION:2.0" ++ LF ++ "END:VCALENDAR").
Proof.
  split; [reflexivity|].
  split; [destruct flag; reflexivity|reflexivity].
Qed.


(** C4, as the code has it. If [to_datetime] rejects the Datum of a
    record that is left after the weekend filter, the run raises before
    the output file is opened: the file is as it was and the trace has
    grown by requests and pauses only. The same holds whenever the fetch
    or the transformation raises. In any run that returns, the file is
    opened and written once, as the last two steps. *)
Theorem parse_failure_leaves_no_file
  (self : RödaDagar) (w : world) (df : DataFrame) (r : HolidayRecord) (e : exn) :
  fst (download_dates self w) = Ok df ->
  In r (kept_rows (weekends self) (rows df)) ->
  to_datetime (Datum r) = Raise e ->
  (exists e' net,
      fst (create_ics self w) = Raise e' /\
      snd (create_ics self w) =
        mkworld (web w) (writable w) (file w) (trace w ++ net) /\
      forallb is_net net = true) /\
  (forall self0 w0 e0,
      fst (format_dates self0 w0) = Raise e0 ->
      exists net,
        create_ics self0 w0 =
          (Raise e0, mkworld (web w0) (writable w0) (file w0) (trace w0 ++ net)) /\
        forallb is_net net = true) /\
  (forall self0 w0,
      fst (create_ics self0 w0) = Ok tt ->
      exists net doc,
        forallb is_net net = true /\
        trace (snd (create_ics self0 w0)) =
          (trace w0 ++ net ++ [Open output_path; Write doc])%list /\
        file (snd (create_ics self0 w0)) = Some doc).
Proof.
  intros Hd Hin Hp.
  split; [|split; [apply format_dates_raise|apply create_ics_writes_last]].
  destruct (format_frame_raise _ _ _ _ Hin Hp) as [e' He'].
  destruct (download_dates_net self w) as (net & Hw & Hn).
  rewrite create_ics_run.
  destruct (download_dates self w) as [[df0|e0] w']; [|discriminate].
  cbn [fst] in Hd. injection Hd as ->. cbn [snd] in Hw.
  rewrite He'. exists e', net. auto.
Qed.

(** * Further properties *)

(** ** A fetch that fails *)

(** The loop stops at the first year whose page has no table. *)
Lemma download_loop_stops (l1 : list Z) :
  forall df w tables y l2 e,
    rmap (year_table (web w)) l1 = Ok tables ->
    year_table (web w) y = Raise e ->
    download_loop (l1 ++ y :: l2) df w =
    (Raise e,
     mkworld (web w) (writable w) (file w)
             (trace w ++ flat_map year_events l1 ++ [Request (url ++ str_int y)])).
Proof.
  induction l1 as [|x l1 IH]; intros df w tables y l2 e H He.
  - cbn [app download_loop flat_map]. unfold bind at 1. unfold read_html.
    unfold year_table in He.
    destruct (web w (url ++ str_int y)) as [ts|e0]; cbn [rbind] in He.
    + unfold bind at 1. unfold lift at 1. rewrite He. reflexivity.
    + injection He as ->. reflexivity.
  - cbn [rmap] in H. unfold year_table at 1 in H.
    destruct (web w (url ++ str_int x)) as [ts|e0] eqn:Ew; cbn [rbind] in H;
      [|discriminate].
    destruct (first_table ts) as [t|e0] eqn:Et; cbn [rbind] in H; [|discriminate].
    destruct (rmap (year_table (web w)) l1) as [tl|e0] eqn:El; cbn [rbind] in H;
      [|discriminate].
    cbn [app download_loop]. unfold bind at 1. unfold read_html. rewrite Ew.
    unfold bind at 1. unfold lift at 1. rewrite Et.
    unfold bind at 1. unfold time_sleep.
    rewrite (IH _ _ tl y l2 e) by assumption.
    unfold log. cbn [web writable file trace flat_map year_events].
    rewrite <- !app_assoc. reflexivity.
Qed.

(** X3. If the page of some requested year gives no table while the
    pages of the years before it do, the run raises that year's error
    right after its request: the years after it are never requested, no
    pause follows the failed request, and the file is neither opened nor
    changed. *)
Theorem fetch_stops_at_first_failure
  (self : RödaDagar) (w : world) (l1 l2 : list Z) (y : Z)
  (tables : list Table) (e : exn) :
  years self = (l1 ++ y :: l2)%list ->
  rmap (year_table (web w)) l1 = Ok tables ->
  year_table (web w) y = Raise e ->
  create_ics self w =
  (Raise e,
   mkworld (web w) (writable w) (file w)
           (trace w ++ flat_map year_events l1 ++ [Request (url ++ str_int y)])).
Proof.
  intros Hy Ht He. rewrite create_ics_run. unfold download_dates.
  rewrite Hy, (download_loop_stops l1 _ _ tables y l2 e Ht He). reflexivity.
Qed.

(** ** The order of the column operations *)

Lemma has_label_getitem (labels : list string) (key : string) :
  has_label key labels = true -> getitem labels key = Ok tt.
Proof. unfold getitem. intros ->. reflexivity. Qed.

(** X5. The dates are parsed for the whole column before a day is added
    to any of them, so the error of the first kept record whose date
    [to_datetime] rejects is the one the transformer raises, also when a
    record before it holds the date whose next day overflows. *)
Theorem first_rejected_date_is_raised
  (flag : bool) (df : DataFrame) (l1 l2 : list HolidayRecord)
  (r : HolidayRecord) (e : exn) :
  has_label "Datum" (columns df) = true ->
  (flag = false -> has_label "Veckodag" (columns df) = true) ->
  kept_rows flag (rows df) = (l1 ++ r :: l2)%list ->
  Forall (fun x => exists t, to_datetime (Datum x) = Ok t) l1 ->
  to_datetime (Datum r) = Raise e ->
  format_frame flag df = Raise e.
Proof.
  intros Hd Hv Hk Hl1 Hr. unfold format_frame.
  assert (E : (if negb flag then drop_weekends df else Ok df) =
              Ok (mkframe (columns df) (kept_rows flag (rows df)))).
  { destruct flag; cbn [negb].
    - rewrite kept_rows_true. destruct df; reflexivity.
    - unfold drop_weekends. rewrite (has_label_getitem _ _ (Hv eq_refl)).
      cbn [rbind]. rewrite kept_rows_false. reflexivity. }
  rewrite E. cbn [rbind columns rows].
  rewrite (has_label_getitem _ _ Hd). cbn [rbind].
  rewrite Hk, map_app, rmap_app.
  assert (H1 : exists datum, rmap to_datetime (map Datum l1) = Ok datum).
  { clear Hk. induction Hl1 as [|x l [t Ht] _ [datum IH]]; [exists []; reflexivity|].
    exists (t :: datum). cbn [map rmap]. rewrite Ht. cbn [rbind].
    rewrite IH. reflexivity. }
  destruct H1 as [datum ->]. cbn [rbind map rmap]. rewrite Hr. reflexivity.
Qed.


(** ** The prompt *)

Lemma split_comma_length (line : string) :
  List.length (split_comma line) = S (count_commas line).
Proof.
  induction line as [|c line IH]; [reflexivity|].
  cbn [split_comma count_commas].
  destruct (Ascii.eqb c ","%char); cbn [List.length]; [rewrite IH; reflexivity|].
  destruct (split_comma line) as [|piece pieces]; [discriminate IH|exact IH].
Qed.

Lemma split_comma_join (line : string) :
  String.concat "," (split_comma line) = line.
Proof.
  induction line as [|c line IH]; [reflexivity|].
  cbn [split_comma].
  destruct (Ascii.eqb_spec c ","%char) as [->|Hc].
  - pose proof (split_comma_length line) as Hl.
    destruct (split_comma line) as [|piece pieces] eqn:E; [discriminate Hl|].
    change (String.concat "," ("" :: piece :: pieces))
      with ("" ++ "," ++ String.concat "," (piece :: pieces)).
    rewrite IH. reflexivity.
  - pose proof (split_comma_length line) as Hl.
    destruct (split_comma line) as [|piece pieces] eqn:E; [discriminate Hl|].
    destruct pieces as [|q pieces].
    + cbn [String.concat] in IH |- *. rewrite IH. reflexivity.
    + change (String.concat "," (String c piece :: q :: pieces))
        with (String c piece ++ "," ++ String.concat "," (q :: pieces)).
      change (String.concat "," (piece :: q :: pieces))
        with (piece ++ "," ++ String.concat "," (q :: pieces)) in IH.
      cbn [String.append]. rewrite <- IH. reflexivity.
Qed.

Lemma split_comma_no_comma (line : string) :
  Forall (fun piece => count_commas piece = O) (split_comma line).
Proof.
  induction line as [|c line IH]; [repeat constructor|].
  cbn [split_comma].
  destruct (Ascii.eqb c ","%char) eqn:Ec; [constructor; [reflexivity|exact IH]|].
  destruct (split_comma line) as [|piece pieces].
  - constructor; [|constructor]. cbn [count_commas]. rewrite Ec. reflexivity.
  - inversion IH as [|? ? Hp Hps]; subst.
    constructor; [|exact Hps]. cbn [count_commas]. rewrite Ec. exact Hp.
Qed.

(** X8. Splitting the line at its commas loses nothing: there is one
    piece more than there are commas, so at least one; no piece contains a
    comma; and the pieces joined with commas are the line again. *)
Theorem split_comma_pieces (line : string) :
  List.length (split_comma line) = S (count_commas line) /\
  Forall (fun piece => count_commas piece = O) (split_comma line) /\
  String.concat "," (split_comma line) = line.
Proof.
  split; [apply split_comma_length|].
  split; [apply split_comma_no_comma|apply split_comma_join].
Qed.

Lemma main_run (int : string -> result Z) (literal_eval : string -> result bool)
      (line answer : string) (w : world) :
  main int literal_eval line answer w =
  match rmap int (split_comma line) with
  | Ok ys =>
      match literal_eval answer with
      | Ok flag => create_ics (mkself ys flag) w
      | Raise e => (Raise e, w)
      end
  | Raise e => (Raise e, w)
  end.
Proof.
  unfold main, bind, lift.
  destruct (rmap int (split_comma line)); [|reflexivity].
  destruct (literal_eval answer); reflexivity.
Qed.


(** X10. When [int] rejects a piece of the line, the run raises the error
    of the first rejected piece before anything else happens: the answer
    to the second prompt is not evaluated, no request is made and the file
    is not touched. *)
Theorem prompt_rejects_before_fetch
  (int : string -> result Z) (literal_eval : string -> result bool)
  (line answer : string) (w : world)
  (l1 l2 : list string) (piece : string) (e : exn) :
  split_comma line = (l1 ++ piece :: l2)%list ->
  Forall (fun p => exists y, int p = Ok y) l1 ->
  int piece = Raise e ->
  main int literal_eval line answer w = (Raise e, w).
Proof.
  intros Hs Hl1 Hp. rewrite main_run, Hs, rmap_app.
  assert (H1 : exists ys, rmap int l1 = Ok ys).
  { clear Hs. induction Hl1 as [|p l [y Hy] _ [ys IH]]; [exists []; reflexivity|].
    exists (y :: ys). cbn [rmap]. rewrite Hy. cbn [rbind]. rewrite IH. reflexivity. }
  destruct H1 as [ys ->]. cbn [rbind rmap]. rewrite Hp. reflexivity.
Qed.


(** ** What the weekday column is used for *)

Lemma triples_zip_dates (rs : list HolidayRecord) :
  forall (datum : list Z) (starts ends : list string),
    triples_of (zip_dates rs datum starts ends) =
    zip_texts (map Namn rs) datum starts ends.
Proof.
  induction rs as [|r rs IH]; intros datum starts ends; [reflexivity|].
  destruct datum as [|t datum]; [reflexivity|].
  destruct starts as [|s starts]; [reflexivity|].
  destruct ends as [|e ends]; [reflexivity|].
  cbn [zip_dates triples_of map zip_texts date_start date_end Namn'].
  unfold triples_of in IH. rewrite IH. reflexivity.
Qed.

(** The triples of a run that keeps weekends, from the two columns it reads. *)
Lemma kept_weekends_triples (cols : list string) (rs : list HolidayRecord) :
  rbind (format_frame true (mkframe cols rs))
        (fun out => Ok (triples_of (rows' out))) =
  rbind (getitem cols "Datum") (fun _ =>
  rbind (rmap to_datetime (map Datum rs)) (fun datum =>
  rbind (rmap add_day datum) (fun shifted =>
    Ok (zip_texts (map Namn rs) datum
                  (map (date_text datum) datum) (map (date_text shifted) shifted))))).
Proof.
  unfold format_frame. cbn [negb rbind columns rows].
  destruct (getitem cols "Datum"); [|reflexivity]. cbn [rbind].
  destruct (rmap to_datetime (map Datum rs)) as [datum|e]; [|reflexivity].
  cbn [rbind]. cbv zeta.
  destruct (rmap add_day datum) as [shifted|e]; [|reflexivity].
  cbn [rbind rows']. rewrite triples_zip_dates. reflexivity.
Qed.

(** X12. With the weekends flag true the weekday column is not used at
    all: two tables with the same dates and the same names, row by row,
    give the same events or the same error, whatever their weekday texts
    are. *)
Theorem weekday_unused_when_kept
  (cols : list string) (rs1 rs2 : list HolidayRecord) :
  map Datum rs1 = map Datum rs2 ->
  map Namn rs1 = map Namn rs2 ->
  rbind (format_frame true (mkframe cols rs1))
        (fun out => Ok (triples_of (rows' out))) =
  rbind (format_frame true (mkframe cols rs2))
        (fun out => Ok (triples_of (rows' out))).
Proof.
  intros Hd Hn. rewrite !kept_weekends_triples, Hd, Hn. reflexivity.
Qed.

End Pandas.

(** * Instances

    The statements above, at concrete tables, with a [to_datetime] that
    rejects every text the definition leaves open. *)



Lemma weekend_filter_witness :
  (exists shifted,
      rmap add_day (map Datum' (rows' scenario_out)) = Ok shifted /\
      Forall2 (formatted reject_other no_print (map Datum' (rows' scenario_out)) shifted)
              (kept_rows false (rows scenario_frame)) (rows' scenario_out)) /\
  (forall r, In r (kept_rows false (rows scenario_frame)) <->
             In r (rows scenario_frame) /\
             (false = true \/ (Veckodag r <> "Lördag" /\ Veckodag r <> "Söndag"))) /\
  (false = true -> kept_rows false (rows scenario_frame) = rows scenario_frame) /\
  (List.length (rows' scenario_out) <= List.length (rows scenario_frame))%nat.
Proof.
  apply (weekend_filter reject_other no_print false scenario_frame scenario_out).
  reflexivity.
Defined.

Lemma weekend_dates_not_parsed_witness :
  to_datetime reject_other "not-a-date" = Raise (ValueError "not-a-date") /\
  format_frame reject_other no_print false
    (mkframe table_columns ([] ++ mkrecord "Lördag" "not-a-date" "x" :: [])) =
  format_frame reject_other no_print false (mkframe table_columns ([] ++ [])) /\
  format_frame reject_other no_print false (mkframe table_columns ([] ++ [])) =
  Ok (mkdatesframe (table_columns ++ ["date_start"; "date_end"])%list []).
Proof.
  split; [reflexivity|]. split; [|reflexivity].
  apply (weekend_dates_not_parsed reject_other no_print table_columns [] []
           (mkrecord "Lördag" "not-a-date" "x")).
  left. reflexivity.
Defined.

Lemma parse_failure_leaves_no_file_witness :
  (exists e' net,
      fst (create_ics reject_other no_print (mkself [2024] true)
             (fresh (pages_of bad_date_table))) = Raise e' /\
      snd (create_ics reject_other no_print (mkself [2024] true)
             (fresh (pages_of bad_date_table))) =
        mkworld (pages_of bad_date_table) true None ([] ++ net) /\
      forallb is_net net = true) /\
  (forall self0 w0 e0,
      fst (format_dates reject_other no_print self0 w0) = Raise e0 ->
      exists net,
        create_ics reject_other no_print self0 w0 =
          (Raise e0, mkworld (web w0) (writable w0) (file w0) (trace w0 ++ net)) /\
        forallb is_net net = true) /\
  (forall self0 w0,
      fst (create_ics reject_other no_print self0 w0) = Ok tt ->
      exists net doc,
        forallb is_net net = true /\
        trace (snd (create_ics reject_other no_print self0 w0)) =
          (trace w0 ++ net ++ [Open output_path; Write doc])%list /\
        file (snd (create_ics reject_other no_print self0 w0)) = Some doc).
Proof.
  apply (parse_failure_leaves_no_file reject_other no_print
           (mkself [2024] true) (fresh (pages_of bad_date_table))
           (mkframe table_columns bad_date_table)
           (mkrecord "Måndag" "not-a-date" "x") (ValueError "not-a-date")).
  - reflexivity.
  - simpl. left. reflexivity.
  - reflexivity.
Defined.

(** C4, as the claim has it, fails twice over. A record whose Datum is
    empty is no date written with a four-digit year and hyphens, yet
    [to_datetime] makes a missing value of it and the run returns and
    writes the file; and with the weekends flag false a Saturday record
    whose Datum [to_datetime] would reject is dropped unread, and the run
    returns as well. *)
Lemma any_record_counterexample :
  ~ (forall (other : string -> result Z) (print : list Z -> Z -> string)
            (self : RödaDagar) (w : world) (df : DataFrame) (r : HolidayRecord),
        fst (download_dates self w) = Ok df ->
        In r (rows df) ->
        plain_date (Datum r) = None ->
        exists e, fst (create_ics other print self w) = Raise e) /\
  (to_datetime reject_other "not-a-date" = Raise (ValueError "not-a-date") /\
   fst (download_dates (mkself [2024] false) (fresh (pages_of saturday_bad_date)))
     = Ok (mkframe table_columns saturday_bad_date) /\
   create_ics reject_other no_print (mkself [2024] false)
              (fresh (pages_of saturday_bad_date)) =
   (Ok tt,
    mkworld (pages_of saturday_bad_date) true (Some (vcalendar []))
            [Request (url ++ "2024"); Sleep 5; Open output_path; Write (vcalendar [])])).
Proof.
  split; [|repeat split; reflexivity].
  intros H.
  destruct (H reject_other no_print (mkself [2024] true)
              (fresh (pages_of (rows empty_date_frame)))
              empty_date_frame (mkrecord "Måndag" "" "x")
              eq_refl (or_introl eq_refl) eq_refl) as [e He].
  vm_compute in He. discriminate He.
Qed.

Lemma fetch_stops_at_first_failure_witness :
  create_ics reject_other no_print (mkself [2023; 2024; 2025] true)
             (fresh (pages_until 2024 year_2024)) =
  (Raise (FetchError (url ++ "2024")),
   mkworld (pages_until 2024 year_2024) true None
           ([] ++ flat_map year_events [2023] ++ [Request (url ++ str_int 2024)])).
Proof.
  apply (fetch_stops_at_first_failure reject_other no_print
           (mkself [2023; 2024; 2025] true) (fresh (pages_until 2024 year_2024))
           [2023] [2025] 2024 [year_2024] (FetchError (url ++ "2024")));
    reflexivity.
Defined.

Lemma first_rejected_date_is_raised_witness :
  format_frame reject_other no_print true
    (mkframe table_columns
       [mkrecord "Tisdag" "2262-04-11" "last"; mkrecord "Onsdag" "not-a-date" "bad"])
  = Raise (ValueError "not-a-date").
Proof.
  apply (first_rejected_date_is_raised reject_other no_print true
           (mkframe table_columns
              [mkrecord "Tisdag" "2262-04-11" "last";
               mkrecord "Onsdag" "not-a-date" "bad"])
           [mkrecord "Tisdag" "2262-04-11" "last"] []
           (mkrecord "Onsdag" "not-a-date" "bad") (ValueError "not-a-date")).
  - reflexivity.
  - discriminate.
  - reflexivity.
  - apply Forall_cons; [|apply Forall_nil].
    exists (106751 * NS_PER_DAY). reflexivity.
  - reflexivity.
Defined.

Lemma prompt_rejects_before_fetch_witness :
  main reject_other no_print int_digits eval_bool "2023,,2025" "True"
       (fresh (pages_of year_2024)) =
  (Raise (ValueError ""), fresh (pages_of year_2024)).
Proof.
  apply (prompt_rejects_before_fetch reject_other no_print int_digits eval_bool
           "2023,,2025" "True" (fresh (pages_of year_2024))
           ["2023"] ["2025"] "" (ValueError "")).
  - reflexivity.
  - apply Forall_cons; [|apply Forall_nil]. exists 2023. reflexivity.
  - reflexivity.
Defined.

Lemma weekday_unused_when_kept_witness :
  rbind (format_frame reject_other no_print true
           (mkframe table_columns [mkrecord "Lördag" "2024-01-06" "Trettondedag jul"]))
        (fun out => Ok (triples_of (rows' out))) =
  rbind (format_frame reject_other no_print true
           (mkframe table_columns [mkrecord "" "2024-01-06" "Trettondedag jul"]))
        (fun out => Ok (triples_of (rows' out))).
Proof.
  apply (weekday_unused_when_kept reject_other no_print table_columns
           [mkrecord "Lördag" "2024-01-06" "Trettondedag jul"]
           [mkrecord "" "2024-01-06" "Trettondedag jul"]);
    reflexivity.
Defined.

(** ** Scenarios *)

Example scenario_drops_saturday :
  file (snd (create_ics reject_other no_print (mkself [2024] false)
               (fresh (pages_of year_2024)))) =
  Some (vcalendar [("20240101", "20240102", "Nyårsdagen")]).
Proof. vm_compute. reflexivity. Qed.

Example leap_and_common_february :
  rbind (format_frame reject_other no_print true leap_frame)
        (fun out => Ok (triples_of (rows' out))) =
  Ok [("20240228", "20240229", "leap"); ("20230228", "20230301", "common")].
Proof. reflexivity. Qed.

Example year_rollover :
  rbind (format_frame reject_other no_print true
           (mkframe table_columns [mkrecord "Tisdag" "2024-12-31" "Nyårsafton"]))
        (fun out => Ok (triples_of (rows' out))) =
  Ok [("20241231", "20250101", "Nyårsafton")].
Proof. reflexivity. Qed.

Example empty_date_gives_NaT :
  rbind (format_frame reject_other no_print true
           (mkframe table_columns
              [mkrecord "Måndag" "2024-01-01" "Nyårsdagen"; mkrecord "Tisdag" "" "x"]))
        (fun out => Ok (triples_of (rows' out))) =
  Ok [("20240101", "20240102", "Nyårsdagen"); ("NaT", "NaT", "x")].
Proof. reflexivity. Qed.

Example last_timestamp_day_overflows :
  format_frame reject_other no_print true
    (mkframe table_columns [mkrecord "Tisdag" "2262-04-11" "last"])
  = Raise OverflowError.
Proof. reflexivity. Qed.

Example not_written_with_two_digits : plain_date "2024-2-8" = None.
Proof. reflexivity. Qed.

Example no_such_day : plain_date "2023-02-29" = None.
Proof. reflexivity. Qed.
